(** * smart_banking_bot: the request pipeline of [app.py]

    A shallow embedding of the four functions of [src/app.py]
    ([classify_query_with_deepseek], [fetch_bank_data],
    [convert_json_to_readable_format], [bank_query]) and the properties
    of the classify / route / fetch / humanize pipeline.

    Python values are modelled as follows.
    - [str] is a list of Unicode code points ([pystr]).
    - The external calls ([ollama.chat], [requests.post]) are nodes of a
      program tree ([Prog]); a [World] of stubs answers them, and [run]
      records every call with its outcome in a trace.
    - Exceptions are values of [Exn]; [try_except] is the [try] block of
      [fetch_bank_data]. *)

From Stdlib Require Import ZArith NArith Ascii String.
From stdpp Require Import base option list strings gmap pretty.

Local Open Scope N_scope.

(** ** Python strings *)

Module PyStr.

(** A Python [str]: its code points. *)
Definition pystr : Type := list N.

(** A source literal (all literals of [app.py] are ASCII). *)
Definition lit (s : string) : pystr :=
  N_of_ascii <$> String.list_ascii_of_string s.

Definition NL : pystr := [10].
Definition DQUOTE : pystr := [34].

(** [str.isspace] on one code point, the test [str.strip()] applies:
    the Unicode white space characters and the separators U+001C..U+001F. *)
Definition isspace (c : N) : bool :=
  ((0x09 <=? c) && (c <=? 0x0D)) || ((0x1C <=? c) && (c <=? 0x20))
  || (c =? 0x85) || (c =? 0xA0) || (c =? 0x1680)
  || ((0x2000 <=? c) && (c <=? 0x200A))
  || (c =? 0x2028) || (c =? 0x2029) || (c =? 0x202F) || (c =? 0x205F)
  || (c =? 0x3000).

Fixpoint lstrip (s : pystr) : pystr :=
  match s with
  | c :: s' => if isspace c then lstrip s' else s
  | [] => []
  end.

Definition rstrip (s : pystr) : pystr := reverse (lstrip (reverse s)).

(** [s.strip()] *)
Definition strip (s : pystr) : pystr := rstrip (lstrip s).

(** [s] is white space only. *)
Definition spaces (s : pystr) : Prop := Forall (λ c, isspace c = true) s.

(** [s] does not start, resp. end, with white space. *)
Definition starts_clean (s : pystr) : Prop :=
  ∀ c, head s = Some c → isspace c = false.
Definition ends_clean (s : pystr) : Prop :=
  ∀ c, last s = Some c → isspace c = false.

Definition is_ascii (c : N) : Prop := c < 128.

(** [str.lower] on an ASCII code point. *)
Definition ascii_lower (c : N) : N :=
  if (0x41 <=? c) && (c <=? 0x5A) then c + 32 else c.

(** The part of the Python runtime that reads the Unicode character
    database, which is no part of this repository: [str.lower] (case
    table, final-sigma rule) and [repr] of a [str] (printable code
    points).  On ASCII text [str.lower] is [ascii_lower] on every code
    point; nothing else is assumed of it. *)
Class PyUnicode : Type := {
  str_lower : pystr → pystr;
  str_lower_ascii (s : pystr) :
    Forall is_ascii s → str_lower s = ascii_lower <$> s;
  str_repr : pystr → pystr
}.

(** [", ".join(parts)] *)
Fixpoint join (sep : pystr) (parts : list pystr) : pystr :=
  match parts with
  | [] => []
  | [p] => p
  | p :: ps => p ++ sep ++ join sep ps
  end.

(** [str(n)] for an [int]. *)
Definition str_int (n : Z) : pystr := lit (pretty n).

End PyStr.
Export PyStr.

(** ** JSON values, as [response.json()] returns them *)

#[warnings="-register-all"]
Inductive Json : Type :=
| JNull
| JBool (b : bool)
| JInt (n : Z)
| JFloat (float_repr : pystr)   (* a float, known by its [repr] only *)
| JStr (s : pystr)
| JList (items : list Json)
| JDict (items : list (pystr * Json)).

Section Repr.
Context `{PyUnicode}.

(** [repr(j)] *)
Fixpoint json_repr (j : Json) : pystr :=
  match j with
  | JNull => lit "None"
  | JBool true => lit "True"
  | JBool false => lit "False"
  | JInt n => str_int n
  | JFloat r => r
  | JStr s => str_repr s
  | JList items => lit "[" ++ join (lit ", ") (json_repr <$> items) ++ lit "]"
  | JDict items =>
      lit "{"
      ++ join (lit ", ")
           ((λ kv, str_repr kv.1 ++ lit ": " ++ json_repr kv.2) <$> items)
      ++ lit "}"
  end.

(** [str(j)], what an f-string field [{j}] inserts. *)
Definition json_str (j : Json) : pystr :=
  match j with
  | JStr s => s
  | _ => json_repr j
  end.

End Repr.

(** [f"{x}"] for a value read by [os.getenv], which is [None] when unset. *)
Definition getenv_str (x : option pystr) : pystr :=
  default (lit "None") x.

(** ** Exceptions, external calls and program trees *)

(** The exceptions the pipeline can see.  [str(e)] of a
    [requests.RequestException] (or of a subclass such as [HTTPError],
    [ConnectionError], [Timeout]) is its message. *)
Inductive Exn : Type :=
| HTTPException (code : Z) (detail : pystr)
| RequestException (msg : pystr)
| OtherException (msg : pystr).

(** One entry of the [messages] argument of [ollama.chat]. *)
Record Message : Type := { role : pystr; content : pystr }.

(** What [requests.post] returns: the fields [raise_for_status] reads,
    and the outcome of [response.json()]: the decoded body, or the
    exception that decoding raises (a [RequestException] since requests
    2.27, a [ValueError] before). *)
Record Response : Type := {
  status_code : Z;
  reason : pystr;
  url : pystr;
  body : Exn + Json
}.

Definition Headers : Type := list (pystr * pystr).

(** A program over the two external calls.  The continuation of a call
    receives its outcome: the value returned or the exception raised. *)
Inductive Prog (A : Type) : Type :=
| Return (a : A)
| Raise (e : Exn)
| Chat (model : pystr) (messages : list Message) (k : Exn + pystr → Prog A)
| Post (target : pystr) (json : Json) (headers : Headers)
       (k : Exn + Response → Prog A).

Arguments Return {A} a.
Arguments Raise {A} e.
Arguments Chat {A} model messages k.
Arguments Post {A} target json headers k.

Fixpoint bind {A B} (p : Prog A) (f : A → Prog B) : Prog B :=
  match p with
  | Return a => f a
  | Raise e => Raise e
  | Chat m ms k => Chat m ms (λ o, bind (k o) f)
  | Post u j h k => Post u j h (λ o, bind (k o) f)
  end.

#[export] Instance prog_ret : MRet Prog := @Return.
#[export] Instance prog_bind : MBind Prog := λ A B f p, bind p f.

(** A call outside any [try]: an exception of the callee propagates. *)
Definition returned {A} (o : Exn + A) : Prog A :=
  match o with
  | inl e => Raise e
  | inr a => Return a
  end.

(** [ollama.chat(model=.., messages=..)["message"]["content"]]: the
    content of the reply, or the exception raised by the call or by the
    subscripts on a response that has no such field. *)
Definition ollama_chat (model : pystr) (messages : list Message) : Prog pystr :=
  Chat model messages returned.

(** [requests.post(url, json=.., headers=..)] *)
Definition requests_post (target : pystr) (json : Json) (headers : Headers)
  : Prog Response :=
  Post target json headers returned.

(** [try: p  except <clause> as e: handler e]; [handler e = None] when
    the exception is not an instance of the clause's class. *)
Fixpoint try_except {A} (p : Prog A) (handler : Exn → option (Prog A)) : Prog A :=
  match p with
  | Return a => Return a
  | Raise e => default (Raise e) (handler e)
  | Chat m ms k => Chat m ms (λ o, try_except (k o) handler)
  | Post u j h k => Post u j h (λ o, try_except (k o) handler)
  end.

(** [response.raise_for_status()] of the requests library: the message
    [http_error_msg] is set for the statuses 400..599 only, and an
    [HTTPError] (a [RequestException]) is raised when it is set. *)
Definition http_error_msg (r : Response) : option pystr :=
  if decide (400 ≤ status_code r < 500)%Z then
    Some (str_int (status_code r) ++ lit " Client Error: " ++ reason r
          ++ lit " for url: " ++ url r)
  else if decide (500 ≤ status_code r < 600)%Z then
    Some (str_int (status_code r) ++ lit " Server Error: " ++ reason r
          ++ lit " for url: " ++ url r)
  else None.

Definition raise_for_status (r : Response) : Prog unit :=
  match http_error_msg r with
  | Some msg => Raise (RequestException msg)
  | None => Return ()
  end.

(** [response.json()] *)
Definition response_json (r : Response) : Prog Json := returned (body r).

(** ** Worlds and runs *)

(** The stubs that answer the external calls; they may keep a state [S]
    of their own (a script, a counter). *)
Record World (S : Type) : Type := {
  chat_stub : pystr → list Message → S → (Exn + pystr) * S;
  post_stub : pystr → Json → Headers → S → (Exn + Response) * S
}.

Arguments chat_stub {S} w model messages s : rename.
Arguments post_stub {S} w target json headers s : rename.

(** An external call that was made, with its outcome. *)
Inductive Event : Type :=
| ChatEvent (model : pystr) (messages : list Message) (outcome : Exn + pystr)
| PostEvent (target : pystr) (json : Json) (headers : Headers)
            (outcome : Exn + Response).

(** The outcome alone. *)
Inductive Reply : Type :=
| ChatReply (outcome : Exn + pystr)
| PostReply (outcome : Exn + Response).

Definition reply_of (ev : Event) : Reply :=
  match ev with
  | ChatEvent _ _ o => ChatReply o
  | PostEvent _ _ _ o => PostReply o
  end.

(** What a run yields: the value returned or the exception raised, the
    calls made in order, and the stubs' final state. *)
Record Outcome (S A : Type) : Type := {
  result : Exn + A;
  trace : list Event;
  final : S
}.

Arguments Build_Outcome {S A} result trace final.
Arguments result {S A} o.
Arguments trace {S A} o.
Arguments final {S A} o.

Definition logged {S A} (ev : Event) (o : Outcome S A) : Outcome S A :=
  {| result := result o; trace := ev :: trace o; final := final o |}.

Fixpoint run {S A} (w : World S) (p : Prog A) (s : S) : Outcome S A :=
  match p with
  | Return a => {| result := inr a; trace := []; final := s |}
  | Raise e => {| result := inl e; trace := []; final := s |}
  | Chat m ms k =>
      let '(o, s') := chat_stub w m ms s in
      logged (ChatEvent m ms o) (run w (k o) s')
  | Post u j h k =>
      let '(o, s') := post_stub w u j h s in
      logged (PostEvent u j h o) (run w (k o) s')
  end.

(** Sequencing of runs: the run of [p ≫= f] is the run of [p] followed,
    when [p] returns, by the run of [f] on its value. *)
Definition then_run {S A B} (o : Outcome S A) (f : A → S → Outcome S B)
  : Outcome S B :=
  match result o with
  | inl e => {| result := inl e; trace := trace o; final := final o |}
  | inr a =>
      let o' := f a (final o) in
      {| result := result o'; trace := trace o ++ trace o';
         final := final o' |}
  end.

(** The run of [try_except p handler], from the run of [p]. *)
Definition catch_run {S A} (o : Outcome S A)
    (handler : Exn → option (S → Outcome S A)) : Outcome S A :=
  match result o with
  | inl e =>
      match handler e with
      | Some f =>
          let o' := f (final o) in
          {| result := result o'; trace := trace o ++ trace o';
             final := final o' |}
      | None => o
      end
  | inr _ => o
  end.

(** ** The functions of [app.py] *)

(** Process configuration, read once by [os.getenv] at import. *)
Record Config : Type := {
  BANK_API_URL : option pystr;
  BANK_API_KEY : option pystr
}.

(** The request model. *)
Record BankQuery : Type := {
  account_number : pystr;
  query_text : pystr
}.

Definition user_message (prompt : pystr) : Message :=
  {| role := lit "user"; content := prompt |}.

(** The labels of the membership test of [classify_query_with_deepseek]. *)
Definition categories : list pystr :=
  [lit "balance"; lit "mini_statement"; lit "last_transaction";
   lit "loan_balance"].

(** The f-string of [classify_query_with_deepseek]. *)
Definition classify_prompt (query_text : pystr) : pystr :=
  NL
  ++ lit "    Classify the following banking query into one of these categories: " ++ NL
  ++ lit "    - balance" ++ NL
  ++ lit "    - mini_statement" ++ NL
  ++ lit "    - last_transaction" ++ NL
  ++ lit "    - loan_balance" ++ NL
  ++ lit "    " ++ NL
  ++ lit "    If the query doesn't match, return 'unknown'." ++ NL
  ++ lit "    " ++ NL
  ++ lit "    Query: " ++ DQUOTE ++ query_text ++ DQUOTE ++ NL
  ++ lit "    Response:" ++ NL
  ++ lit "    ".

(** The dict literal of [bank_query]. *)
Definition endpoint_map : gmap pystr pystr :=
  <[lit "balance" := lit "account/balance"]>
  (<[lit "mini_statement" := lit "account/mini-statement"]>
  (<[lit "last_transaction" := lit "account/transactions"]>
  (<[lit "loan_balance" := lit "account/loan-balance"]> ∅))).

Section App.
Context `{PyUnicode}.
Variable config : Config.

(** [response["message"]["content"].strip().lower()] *)
Definition normalize (reply : pystr) : pystr := str_lower (strip reply).

(** The last two lines of [classify_query_with_deepseek], on the
    content of the reply. *)
Definition classify_reply (response : pystr) : pystr :=
  let query_type := normalize response in
  if decide (query_type ∈ categories) then query_type else lit "unknown".

Definition classify_query_with_deepseek (query_text : pystr) : Prog pystr :=
  let prompt := classify_prompt query_text in
  response ← ollama_chat (lit "deepseek") [user_message prompt];
  mret (classify_reply response).

Definition request_headers : Headers :=
  [(lit "Authorization", lit "Bearer " ++ getenv_str (BANK_API_KEY config));
   (lit "Content-Type", lit "application/json")].

Definition request_url (endpoint : pystr) : pystr :=
  getenv_str (BANK_API_URL config) ++ lit "/" ++ endpoint.

Definition fetch_bank_data (endpoint : pystr) (payload : Json) : Prog Json :=
  try_except
    (let headers := request_headers in
     response ← requests_post (request_url endpoint) payload headers;
     raise_for_status response;;
     response_json response)
    (λ e, match e with
          | RequestException msg =>
              Some (Raise (HTTPException 400 (lit "API Error: " ++ msg)))
          | _ => None
          end).

(** The f-string of [convert_json_to_readable_format]. *)
Definition readable_prompt (query_text : pystr) (raw_json : Json) : pystr :=
  NL
  ++ lit "    Convert the following banking API JSON response into a user-friendly message:" ++ NL
  ++ NL
  ++ lit "    Query: " ++ DQUOTE ++ query_text ++ DQUOTE ++ NL
  ++ lit "    JSON Response:" ++ NL
  ++ lit "    " ++ json_str raw_json ++ NL
  ++ NL
  ++ lit "    Format it in a short, clear message." ++ NL
  ++ lit "    ".

Definition convert_json_to_readable_format
    (query_text : pystr) (raw_json : Json) : Prog pystr :=
  let prompt := readable_prompt query_text raw_json in
  response ← ollama_chat (lit "deepseek") [user_message prompt];
  mret (strip response).

Definition request_payload (request : BankQuery) : Json :=
  JDict [(lit "account_number", JStr (account_number request))].

Definition bank_query (request : BankQuery) : Prog (list (pystr * pystr)) :=
  query_type ← classify_query_with_deepseek (query_text request);
  match endpoint_map !! query_type with
  | None =>
      Raise (HTTPException 400 (lit "Query not recognized. Try rephrasing."))
  | Some endpoint =>
      raw_response ← fetch_bank_data endpoint (request_payload request);
      readable_response ←
        convert_json_to_readable_format (query_text request) raw_response;
      mret [(lit "response", readable_response)]
  end.

End App.

(** ** Vocabulary of the statements *)

(** The calls of the three stages, as they appear in a trace. *)
Definition classify_event (query_text : pystr) (o : Exn + pystr) : Event :=
  ChatEvent (lit "deepseek") [user_message (classify_prompt query_text)] o.

Definition fetch_event (config : Config) (endpoint : pystr)
    (request : BankQuery) (o : Exn + Response) : Event :=
  PostEvent (request_url config endpoint) (request_payload request)
    (request_headers config) o.

Definition readable_event `{PyUnicode} (query_text : pystr) (raw_json : Json)
    (o : Exn + pystr) : Event :=
  ChatEvent (lit "deepseek")
    [user_message (readable_prompt query_text raw_json)] o.

(** The backend call failed at the transport level ([requests.post]
    raised a [RequestException]) or returned a status that
    [raise_for_status] rejects; the description of the cause. *)
Definition backend_failure (o : Exn + Response) : option pystr :=
  match o with
  | inl (RequestException msg) => Some msg
  | inl _ => None
  | inr r => http_error_msg r
  end.

(** A status outside 200..299. *)
Definition non_success (r : Response) : Prop :=
  ¬ (200 ≤ status_code r < 300)%Z.

(** [v] is [label] up to the case of its ASCII letters. *)
Definition case_variant (v label : pystr) : Prop :=
  Forall is_ascii v ∧ ascii_lower <$> v = label.

(** The errors of the pipeline that the client sees. *)
Definition UnrecognizedQuery : Exn :=
  HTTPException 400 (lit "Query not recognized. Try rephrasing.").

Definition BackendError (cause : pystr) : Exn :=
  HTTPException 400 (lit "API Error: " ++ cause).

(** An external call without its outcome: what leaves the process. *)
Inductive Call : Type :=
| ChatCall (model : pystr) (messages : list Message)
| PostCall (target : pystr) (json : Json) (headers : Headers).

Definition call_of (ev : Event) : Call :=
  match ev with
  | ChatEvent m ms _ => ChatCall m ms
  | PostEvent u j h _ => PostCall u j h
  end.


(** What [fetch_bank_data] makes of the outcome of its [requests.post]:
    the [except] clause rewrites a [RequestException], raised by the
    call, by [raise_for_status] or by [response.json()], into the
    bad-request error, and lets any other exception through. *)
Definition fetch_result (o : Exn + Response) : Exn + Json :=
  match o with
  | inl (RequestException msg) => inl (BackendError msg)
  | inl e => inl e
  | inr r =>
      match http_error_msg r with
      | Some msg => inl (BackendError msg)
      | None =>
          match body r with
          | inl (RequestException msg) => inl (BackendError msg)
          | inl e => inl e
          | inr j => inr j
          end
      end
  end.


(** The request and the backend payload of the balance scenario. *)
Definition balance_request : BankQuery :=
  {| account_number := lit "123"; query_text := lit "what's my balance?" |}.

Definition balance_raw : Json := JDict [(lit "balance", JInt 100)].

(** ** A reference runtime and scripted stubs, for closed examples *)

Module Reference.

Definition hex_digit (d : N) : N := if d <? 10 then 48 + d else 87 + d.

(** One code point inside [repr] of a [str] quoted with [quote]. *)
Definition repr_char (quote c : N) : pystr :=
  if c =? quote then [92; c]
  else if c =? 92 then [92; 92]
  else if c =? 9 then lit "\t"
  else if c =? 10 then lit "\n"
  else if c =? 13 then lit "\r"
  else if (c <? 32) || (c =? 127) then
    lit "\x" ++ [hex_digit (c / 16); hex_digit (c mod 16)]
  else [c].

Definition ascii_repr (s : pystr) : pystr :=
  let quote :=
    if bool_decide (39 ∈ s) && negb (bool_decide (34 ∈ s)) then 34 else 39 in
  [quote] ++ concat (repr_char quote <$> s) ++ [quote].

(** A runtime that agrees with CPython on ASCII text; code points above
    U+007F are left as they are. *)
Definition ascii_unicode : PyUnicode := {|
  str_lower s := ascii_lower <$> s;
  str_lower_ascii s _ := eq_refl;
  str_repr := ascii_repr
|}.

(** Stubs that answer from a script, one entry per call, as a mock with
    a list of return values does. *)
Definition scripted : World (list Reply) := {|
  chat_stub _ _ script :=
    match script with
    | ChatReply o :: rest => (o, rest)
    | _ => (inl (OtherException (lit "unexpected call")), script)
    end;
  post_stub _ _ _ script :=
    match script with
    | PostReply o :: rest => (o, rest)
    | _ => (inl (OtherException (lit "unexpected call")), script)
    end
|}.

Definition test_config : Config := {|
  BANK_API_URL := Some (lit "https://api.bank.com");
  BANK_API_KEY := Some (lit "secret")
|}.

(** The pipeline on the reference runtime and configuration. *)
Definition reference_query (request : BankQuery)
  : Prog (list (pystr * pystr)) :=
  bank_query (H := ascii_unicode) test_config request.

Definition ok_response (target : pystr) (j : Json) : Response := {|
  status_code := 200; reason := lit "OK"; url := target; body := inr j
|}.

Definition balance_url : pystr :=
  request_url test_config (lit "account/balance").

Definition balance_script : list Reply :=
  [ChatReply (inr (lit "balance"));
   PostReply (inr (ok_response balance_url balance_raw));
   ChatReply (inr (lit "Your balance is $100."))].

#[export] Instance message_eq_dec : EqDecision Message.
Proof. solve_decision. Defined.

(** A mock without state that tells the two chat calls apart by their
    prompt. *)
Definition balance_stub : World unit := {|
  chat_stub _ messages s :=
    (inr (if decide (messages
                     = [user_message
                          (classify_prompt (query_text balance_request))])
          then lit "balance" else lit "Your balance is $100."), s);
  post_stub _ _ _ s := (inr (ok_response balance_url balance_raw), s)
|}.

(** The same request from another account. *)
Definition other_request : BankQuery :=
  {| account_number := lit "456"; query_text := lit "what's my balance?" |}.

(** The humanizer's reply comes with white space around it. *)
Definition untrimmed_script : list Reply :=
  [ChatReply (inr (NL ++ lit "  Your balance is $100. " ++ NL))].


(** The classifier's reply in another case, with a newline. *)
Definition statement_script : list Reply :=
  [ChatReply (inr (lit "Mini_Statement" ++ NL))].

(** The classifier answers with a label that has no route. *)
Definition transfer_script : list Reply :=
  [ChatReply (inr (lit "transfer_funds"))].

(** The backend answers 503. *)
Definition unavailable : Response := {|
  status_code := 503; reason := lit "Service Unavailable";
  url := balance_url; body := inl (RequestException (lit "no JSON"))
|}.

Definition unavailable_script : list Reply :=
  [ChatReply (inr (lit "balance")); PostReply (inr unavailable)].

(** The backend answers 300 with a JSON body and no [Location] header:
    a status outside 200..299 that [requests.post] hands back as it is
    (it follows 301, 302, 303, 307 and 308 only) and that
    [raise_for_status] lets through. *)
Definition multiple_choices : Response := {|
  status_code := 300; reason := lit "Multiple Choices";
  url := balance_url; body := inr balance_raw
|}.

Definition multiple_choices_script : list Reply :=
  [ChatReply (inr (lit "balance")); PostReply (inr multiple_choices);
   ChatReply (inr (lit "Your balance is $100."))].

(** The classifier answers with a padded, capitalised label. *)
Definition padded_script : list Reply :=
  [ChatReply (inr (lit " Balance "));
   PostReply (inr (ok_response balance_url balance_raw));
   ChatReply (inr (lit "Your balance is $100."))].

(** The text-generation service is unreachable. *)
Definition offline_script : list Reply :=
  [ChatReply (inl (OtherException (lit "connection refused")))].

(** The service fails at the humanization call only. *)
Definition late_failure_script : list Reply :=
  [ChatReply (inr (lit "balance"));
   PostReply (inr (ok_response balance_url balance_raw));
   ChatReply (inl (OtherException (lit "connection refused")))].

(** [requests.post] raises something that is no [RequestException]. *)
Definition foreign_script : list Reply :=
  [ChatReply (inr (lit "balance"));
   PostReply (inl (OtherException (lit "interrupted")))].

(** The backend answers 200 with a body that is no JSON. *)
Definition html_response : Response := {|
  status_code := 200; reason := lit "OK"; url := balance_url;
  body := inl (RequestException
                 (lit "Expecting value: line 1 column 1 (char 0)"))
|}.

Definition html_script : list Reply :=
  [ChatReply (inr (lit "balance")); PostReply (inr html_response)].

(** The classifier's reply is white space only. *)
Definition blank_script : list Reply :=
  [ChatReply (inr (lit "  " ++ NL))].

(** The humanizer's reply is white space only. *)
Definition blank_answer_script : list Reply :=
  [ChatReply (inr (lit "balance"));
   PostReply (inr (ok_response balance_url balance_raw));
   ChatReply (inr (lit " " ++ NL))].

(** The same question in other words, from the same account. *)
Definition reworded_request : BankQuery :=
  {| account_number := lit "123"; query_text := lit "how much do I have?" |}.

(** The classifier answers in capitals. *)
Definition shouted_script : list Reply :=
  [ChatReply (inr (lit "BALANCE"))].

(** The backend alone, answering 200 with the balance. *)
Definition fetch_script : list Reply :=
  [PostReply (inr (ok_response balance_url balance_raw))].



End Reference.

(** * Properties *)

(** ** [str.strip] *)

Section Strip.

Lemma lstrip_spaces ws s : spaces ws → lstrip (ws ++ s) = lstrip s.
Proof.
  induction 1 as [|c ws Hc _ IH]; [done|].
  simpl. by rewrite Hc.
Qed.

Lemma lstrip_clean s : starts_clean s → lstrip s = s.
Proof.
  destruct s as [|c s]; [done|]. intros Hs. simpl.
  by rewrite (Hs c eq_refl).
Qed.

Lemma lstrip_split s :
  ∃ ws, s = ws ++ lstrip s ∧ spaces ws ∧ starts_clean (lstrip s).
Proof.
  induction s as [|c s (ws & Hs & Hws & Hclean)].
  - exists []. repeat split; [constructor|]. by intros c.
  - simpl. destruct (isspace c) eqn:Hc.
    + exists (c :: ws). repeat split; [simpl; congruence|by constructor|done].
    + exists []. repeat split; [constructor|]. intros c' [= <-]. done.
Qed.

Lemma rstrip_spaces ws s : spaces ws → rstrip (s ++ ws) = rstrip s.
Proof.
  intros Hws. unfold rstrip. rewrite reverse_app, lstrip_spaces; [done|].
  by apply Forall_reverse.
Qed.

Lemma rstrip_clean s : ends_clean s → rstrip s = s.
Proof.
  intros Hs. unfold rstrip. rewrite lstrip_clean.
  - apply reverse_involutive.
  - intros c Hc. apply Hs. by rewrite <- head_reverse.
Qed.

Lemma rstrip_split s :
  ∃ ws, s = rstrip s ++ ws ∧ spaces ws ∧ ends_clean (rstrip s).
Proof.
  destruct (lstrip_split (reverse s)) as (ws & Hs & Hws & Hclean).
  exists (reverse ws). unfold rstrip. repeat split.
  - by rewrite <- reverse_app, <- Hs, reverse_involutive.
  - by apply Forall_reverse.
  - intros c Hc. apply Hclean. by rewrite <- last_reverse.
Qed.

Lemma rstrip_starts_clean s : starts_clean s → starts_clean (rstrip s).
Proof.
  intros Hs c Hc. apply Hs.
  destruct (rstrip_split s) as (ws & Heq & _). rewrite Heq.
  by destruct (rstrip s).
Qed.

(** [strip] removes a run of white space at either end and nothing
    else; what is left neither starts nor ends with white space. *)
Lemma strip_split s :
  ∃ l r, s = l ++ strip s ++ r ∧ spaces l ∧ spaces r
         ∧ starts_clean (strip s) ∧ ends_clean (strip s).
Proof.
  destruct (lstrip_split s) as (l & Hl & Hsl & Hcl).
  destruct (rstrip_split (lstrip s)) as (r & Hr & Hsr & Hcr).
  exists l, r. unfold strip. repeat split; try done.
  - by rewrite <- Hr.
  - by apply rstrip_starts_clean.
Qed.

Lemma strip_padded l v r :
  spaces l → spaces r → starts_clean v → ends_clean v →
  strip (l ++ v ++ r) = v.
Proof.
  intros Hl Hr Hs He. unfold strip.
  rewrite lstrip_spaces by done.
  destruct v as [|c v].
  - simpl. destruct (lstrip_split r) as (ws & Heq & Hws & Hclean).
    assert (lstrip r = []) as ->; [|done].
    destruct (lstrip r) as [|c r'] eqn:E; [done|].
    assert (isspace c = true) as Hc.
    { rewrite Heq in Hr. apply Forall_app in Hr as [_ Hr].
      by inversion Hr. }
    by rewrite (Hclean c eq_refl) in Hc.
  - rewrite lstrip_clean.
    + rewrite rstrip_spaces by done. by apply rstrip_clean.
    + intros c' [= <-]. by apply Hs.
Qed.

Lemma isspace_ascii_lower c : isspace (ascii_lower c) = isspace c.
Proof.
  unfold ascii_lower.
  destruct ((0x41 <=? c) && (c <=? 0x5A)) eqn:E; [|done].
  apply andb_true_iff in E as [?%N.leb_le ?%N.leb_le].
  unfold isspace.
  repeat match goal with
         | |- context [(?a <=? ?b)] =>
             destruct (N.leb_spec a b); try lia
         | |- context [(?a =? ?b)] =>
             destruct (N.eqb_spec a b); try lia
         end; done.
Qed.

End Strip.

(** ** Runs of composed programs *)

Arguments lit : simpl never.
Arguments classify_prompt : simpl never.
Arguments readable_prompt : simpl never.
Arguments request_url : simpl never.
Arguments request_headers : simpl never.
Arguments request_payload : simpl never.
Arguments normalize : simpl never.
Arguments classify_reply : simpl never.
Arguments strip : simpl never.
Arguments str_int : simpl never.

Section Runs.
Context {S : Type} (w : World S).

Lemma outcome_eta {A} (o : Outcome S A) :
  {| result := result o; trace := trace o; final := final o |} = o.
Proof. by destruct o. Qed.

Lemma run_bind {A B} (p : Prog A) (f : A → Prog B) s :
  run w (p ≫= f) s = then_run (run w p s) (λ a, run w (f a)).
Proof.
  unfold mbind, prog_bind. revert s.
  induction p as [a|e|m ms k IH|u j h k IH]; intros s; simpl.
  - unfold then_run. simpl. by rewrite outcome_eta.
  - done.
  - destruct (chat_stub w m ms s) as [o s']. rewrite IH.
    unfold then_run, logged. simpl. by destruct (result (run w (k o) s')).
  - destruct (post_stub w u j h s) as [o s']. rewrite IH.
    unfold then_run, logged. simpl. by destruct (result (run w (k o) s')).
Qed.

Lemma run_try_except {A} (p : Prog A) handler s :
  run w (try_except p handler) s
  = catch_run (run w p s) (λ e, run w <$> handler e).
Proof.
  revert s.
  induction p as [a|e|m ms k IH|u j h k IH]; intros s; simpl.
  - done.
  - unfold catch_run. simpl. destruct (handler e) as [q|]; simpl; [|done].
    by rewrite outcome_eta.
  - destruct (chat_stub w m ms s) as [o s']. rewrite IH.
    unfold catch_run, logged.
    destruct (run w (k o) s') as [[e|a] t s'']; simpl; [|done].
    by destruct (handler e).
  - destruct (post_stub w u j h s) as [o s']. rewrite IH.
    unfold catch_run, logged.
    destruct (run w (k o) s') as [[e|a] t s'']; simpl; [|done].
    by destruct (handler e).
Qed.

Lemma run_ollama_chat model messages s o s1 :
  chat_stub w model messages s = (o, s1) →
  run w (ollama_chat model messages) s
  = {| result := o; trace := [ChatEvent model messages o]; final := s1 |}.
Proof. intros Hc. unfold ollama_chat. simpl. rewrite Hc. by destruct o. Qed.

Lemma run_requests_post target json headers s o s1 :
  post_stub w target json headers s = (o, s1) →
  run w (requests_post target json headers) s
  = {| result := o; trace := [PostEvent target json headers o];
       final := s1 |}.
Proof. intros Hp. unfold requests_post. simpl. rewrite Hp. by destruct o. Qed.

(** The run's result and trace depend on the world only through the
    outcomes of the calls made. *)
Lemma run_replies {S'} (w' : World S') {A} (p : Prog A) s s' :
  reply_of <$> trace (run w p s) = reply_of <$> trace (run w' p s') →
  result (run w p s) = result (run w' p s')
  ∧ trace (run w p s) = trace (run w' p s').
Proof.
  revert s s'.
  induction p as [a|e|m ms k IH|u j h k IH]; intros s s'; simpl; try done.
  - destruct (chat_stub w m ms s) as [o s1].
    destruct (chat_stub w' m ms s') as [o' s1']. simpl.
    intros [= -> Hrest]. destruct (IH _ _ _ Hrest) as [Hr Ht].
    split; [done|by rewrite Ht].
  - destruct (post_stub w u j h s) as [o s1].
    destruct (post_stub w' u j h s') as [o' s1']. simpl.
    intros [= -> Hrest]. destruct (IH _ _ _ Hrest) as [Hr Ht].
    split; [done|by rewrite Ht].
Qed.

End Runs.

(** ** The stages, run against stubs *)

Section Stages.
Context `{PyUnicode} {S : Type} (w : World S) (config : Config).

Lemma run_classify query_text s o s1 :
  chat_stub w (lit "deepseek") [user_message (classify_prompt query_text)] s
  = (o, s1) →
  run w (classify_query_with_deepseek query_text) s
  = {| result := match o with
                 | inl e => inl e
                 | inr reply => inr (classify_reply reply)
                 end;
       trace := [classify_event query_text o]; final := s1 |}.
Proof.
  intros Hc. unfold classify_query_with_deepseek.
  rewrite run_bind, (run_ollama_chat _ _ _ _ _ _ Hc).
  by destruct o.
Qed.

Lemma run_fetch_failure endpoint request s o s1 cause :
  post_stub w (request_url config endpoint) (request_payload request)
    (request_headers config) s = (o, s1) →
  backend_failure o = Some cause →
  run w (fetch_bank_data config endpoint (request_payload request)) s
  = {| result := inl (BackendError cause);
       trace := [fetch_event config endpoint request o]; final := s1 |}.
Proof.
  intros Hp Hfail. unfold fetch_bank_data.
  rewrite run_try_except, run_bind, (run_requests_post _ _ _ _ _ _ _ Hp).
  destruct o as [[]|r]; simplify_eq/=; [done|].
  unfold then_run; simpl. unfold mbind, prog_bind, raise_for_status.
  by rewrite Hfail.
Qed.

Lemma run_fetch_success endpoint request s r s1 raw :
  post_stub w (request_url config endpoint) (request_payload request)
    (request_headers config) s = (inr r, s1) →
  http_error_msg r = None →
  body r = inr raw →
  run w (fetch_bank_data config endpoint (request_payload request)) s
  = {| result := inr raw;
       trace := [fetch_event config endpoint request (inr r)];
       final := s1 |}.
Proof.
  intros Hp Hok Hbody. unfold fetch_bank_data.
  rewrite run_try_except, run_bind, (run_requests_post _ _ _ _ _ _ _ Hp).
  unfold then_run; simpl.
  unfold mbind, prog_bind, raise_for_status, response_json.
  by rewrite Hok, Hbody.
Qed.

Lemma run_convert query_text raw s o s1 :
  chat_stub w (lit "deepseek")
    [user_message (readable_prompt query_text raw)] s = (o, s1) →
  run w (convert_json_to_readable_format query_text raw) s
  = {| result := match o with
                 | inl e => inl e
                 | inr reply => inr (strip reply)
                 end;
       trace := [readable_event query_text raw o]; final := s1 |}.
Proof.
  intros Hc. unfold convert_json_to_readable_format.
  rewrite run_bind, (run_ollama_chat _ _ _ _ _ _ Hc).
  by destruct o.
Qed.

End Stages.

(** ** Normalisation of the classifier's reply *)

Section Normalize.
Context `{PyUnicode}.

Lemma categories_clean label :
  label ∈ categories → Forall (λ c, isspace c = false) label.
Proof.
  unfold categories. intros Hin.
  repeat (apply elem_of_cons in Hin as [->|Hin]);
    [..|by apply elem_of_nil in Hin];
    vm_compute; repeat constructor.
Qed.

Lemma case_variant_clean v label :
  label ∈ categories → case_variant v label →
  Forall (λ c, isspace c = false) v.
Proof.
  intros Hin [_ <-]. apply categories_clean in Hin.
  rewrite Forall_fmap in Hin.
  eapply Forall_impl; [exact Hin|]. intros c Hc. simpl in Hc.
  by rewrite isspace_ascii_lower in Hc.
Qed.

Lemma clean_ends v :
  Forall (λ c, isspace c = false) v → starts_clean v ∧ ends_clean v.
Proof.
  intros Hv. rewrite Forall_forall in Hv. split; intros c Hc; apply Hv.
  - by apply head_Some_elem_of.
  - by apply last_Some_elem_of.
Qed.

(** A label in any ASCII case, padded with white space, is normalised
    to the label. *)
Lemma normalize_padded l v r label :
  label ∈ categories → spaces l → spaces r → case_variant v label →
  normalize (l ++ v ++ r) = label.
Proof.
  intros Hin Hl Hr Hv. unfold normalize.
  destruct (clean_ends v (case_variant_clean v label Hin Hv)) as [Hs He].
  rewrite strip_padded by done.
  destruct Hv as [Hascii <-]. by apply str_lower_ascii.
Qed.

Lemma classify_reply_padded l v r label :
  label ∈ categories → spaces l → spaces r → case_variant v label →
  classify_reply (l ++ v ++ r) = label.
Proof.
  intros Hin Hl Hr Hv. unfold classify_reply.
  rewrite (normalize_padded l v r label) by done.
  by rewrite decide_True.
Qed.

Lemma classify_reply_label label :
  label ∈ categories → classify_reply label = label.
Proof.
  intros Hin.
  rewrite <- (classify_reply_padded [] label [] label) at 2;
    [by rewrite app_nil_r|done|constructor|constructor|].
  split.
  - unfold categories in Hin.
    repeat (apply elem_of_cons in Hin as [->|Hin]);
      [..|by apply elem_of_nil in Hin];
      vm_compute; repeat constructor.
  - unfold categories in Hin.
    repeat (apply elem_of_cons in Hin as [->|Hin]);
      [..|by apply elem_of_nil in Hin]; by vm_compute.
Qed.

Lemma classify_reply_cases reply :
  (normalize reply ∈ categories ∧ classify_reply reply = normalize reply)
  ∨ ((normalize reply ∉ categories)
     ∧ classify_reply reply = lit "unknown").
Proof.
  unfold classify_reply. case_decide; [by left|by right].
Qed.

Lemma strip_ascii reply : Forall is_ascii reply → Forall is_ascii (strip reply).
Proof.
  intros Hr. destruct (strip_split reply) as (l & r & Heq & _).
  rewrite Heq in Hr. by apply Forall_app in Hr as [_ [? _]%Forall_app].
Qed.

(** On an ASCII reply the classification is computed by [ascii_lower]. *)
Lemma classify_reply_ascii reply :
  Forall is_ascii reply →
  classify_reply reply
  = (let query_type := ascii_lower <$> strip reply in
     if decide (query_type ∈ categories) then query_type else lit "unknown").
Proof.
  intros Hr. unfold classify_reply, normalize.
  by rewrite (str_lower_ascii _ (strip_ascii _ Hr)).
Qed.

(** Empty output, a partial match and extra words all give [unknown]. *)
Lemma classify_reply_near_misses :
  classify_reply (lit "") = lit "unknown"
  ∧ classify_reply (lit "bal") = lit "unknown"
  ∧ classify_reply (lit "balance please") = lit "unknown"
  ∧ classify_reply (lit "balance, loan_balance") = lit "unknown"
  ∧ classify_reply (lit "transfer_funds") = lit "unknown".
Proof.
  repeat split;
    (rewrite classify_reply_ascii;
     [by vm_compute | vm_compute; repeat constructor]).
Qed.

End Normalize.

(** ** The routing table *)

Section Routing.

Lemma endpoint_map_lookup_Some c e :
  endpoint_map !! c = Some e ↔
    (c = lit "balance" ∧ e = lit "account/balance")
    ∨ (c = lit "mini_statement" ∧ e = lit "account/mini-statement")
    ∨ (c = lit "last_transaction" ∧ e = lit "account/transactions")
    ∨ (c = lit "loan_balance" ∧ e = lit "account/loan-balance").
Proof.
  unfold endpoint_map. rewrite !lookup_insert_Some, lookup_empty.
  split.
  - intros [[<- <-]|[_ [[<- <-]|[_ [[<- <-]|[_ [[<- <-]|[_ ?]]]]]]]];
      [tauto..|done].
  - intros [[-> ->]|[[-> ->]|[[-> ->]|[-> ->]]]].
    + by left.
    + right; split; [by vm_compute|]. by left.
    + right; split; [by vm_compute|]. right; split; [by vm_compute|].
      by left.
    + right; split; [by vm_compute|]. right; split; [by vm_compute|].
      right; split; [by vm_compute|]. by left.
Qed.

Lemma endpoint_map_dom c : is_Some (endpoint_map !! c) ↔ c ∈ categories.
Proof.
  unfold is_Some, categories. setoid_rewrite endpoint_map_lookup_Some.
  rewrite !elem_of_cons, elem_of_nil. split.
  - intros [e He]. tauto.
  - intros [->|[->|[->|[->|[]]]]]; eexists; eauto 10.
Qed.

Lemma endpoint_map_unknown : endpoint_map !! lit "unknown" = None.
Proof.
  apply eq_None_not_Some. rewrite endpoint_map_dom. unfold categories.
  intros Hin.
  repeat (apply elem_of_cons in Hin as [Heq|Hin]; [by vm_compute in Heq|]).
  by apply elem_of_nil in Hin.
Qed.

End Routing.

(** ** The pipeline, case by case *)

Section Pipeline.
Context `{PyUnicode} {S : Type} (w : World S) (config : Config).

Lemma run_fetch_trace endpoint request s o s1 :
  post_stub w (request_url config endpoint) (request_payload request)
    (request_headers config) s = (o, s1) →
  trace (run w (fetch_bank_data config endpoint (request_payload request)) s)
  = [fetch_event config endpoint request o]
  ∧ final (run w (fetch_bank_data config endpoint (request_payload request)) s)
    = s1.
Proof.
  intros Hp. unfold fetch_bank_data.
  rewrite run_try_except, run_bind, (run_requests_post _ _ _ _ _ _ _ Hp).
  destruct o as [[]|r]; try done.
  unfold then_run; simpl. unfold mbind, prog_bind, raise_for_status.
  destruct (http_error_msg r); [done|]. simpl. unfold response_json.
  by destruct (body r) as [[]|].
Qed.

Lemma bank_query_classification_raises request s e s1 :
  chat_stub w (lit "deepseek")
    [user_message (classify_prompt (query_text request))] s = (inl e, s1) →
  run w (bank_query config request) s
  = {| result := inl e;
       trace := [classify_event (query_text request) (inl e)];
       final := s1 |}.
Proof.
  intros Hc. unfold bank_query.
  by rewrite run_bind, (run_classify _ _ _ _ _ Hc).
Qed.

Lemma bank_query_unrecognized request s reply s1 :
  chat_stub w (lit "deepseek")
    [user_message (classify_prompt (query_text request))] s
  = (inr reply, s1) →
  endpoint_map !! classify_reply reply = None →
  run w (bank_query config request) s
  = {| result := inl UnrecognizedQuery;
       trace := [classify_event (query_text request) (inr reply)];
       final := s1 |}.
Proof.
  intros Hc Hnone. unfold bank_query.
  rewrite run_bind, (run_classify _ _ _ _ _ Hc).
  unfold then_run; cbn [result trace final]. by rewrite Hnone.
Qed.

Lemma bank_query_routed request s reply s1 endpoint :
  chat_stub w (lit "deepseek")
    [user_message (classify_prompt (query_text request))] s
  = (inr reply, s1) →
  endpoint_map !! classify_reply reply = Some endpoint →
  run w (bank_query config request) s
  = logged (classify_event (query_text request) (inr reply))
      (then_run
         (run w (fetch_bank_data config endpoint (request_payload request)) s1)
         (λ raw_response,
            run w
              (readable_response ←
                 convert_json_to_readable_format (query_text request)
                   raw_response;
               mret [(lit "response", readable_response)]))).
Proof.
  intros Hc Hsome. unfold bank_query.
  rewrite run_bind, (run_classify _ _ _ _ _ Hc).
  unfold then_run at 1; cbn [result trace final]. rewrite Hsome, run_bind.
  unfold logged, then_run. cbn [result trace final app].
  by destruct (result (run w (fetch_bank_data _ _ _) s1)).
Qed.

Lemma bank_query_backend_failure request s reply s1 endpoint o s2 cause :
  chat_stub w (lit "deepseek")
    [user_message (classify_prompt (query_text request))] s
  = (inr reply, s1) →
  endpoint_map !! classify_reply reply = Some endpoint →
  post_stub w (request_url config endpoint) (request_payload request)
    (request_headers config) s1 = (o, s2) →
  backend_failure o = Some cause →
  run w (bank_query config request) s
  = {| result := inl (BackendError cause);
       trace := [classify_event (query_text request) (inr reply);
                 fetch_event config endpoint request o];
       final := s2 |}.
Proof.
  intros Hc Hsome Hp Hfail.
  rewrite (bank_query_routed _ _ _ _ _ Hc Hsome).
  by rewrite (run_fetch_failure _ _ _ _ _ _ _ _ Hp Hfail).
Qed.

Lemma bank_query_fetched request s reply s1 endpoint r s2 raw o s3 :
  chat_stub w (lit "deepseek")
    [user_message (classify_prompt (query_text request))] s
  = (inr reply, s1) →
  endpoint_map !! classify_reply reply = Some endpoint →
  post_stub w (request_url config endpoint) (request_payload request)
    (request_headers config) s1 = (inr r, s2) →
  http_error_msg r = None →
  body r = inr raw →
  chat_stub w (lit "deepseek")
    [user_message (readable_prompt (query_text request) raw)] s2 = (o, s3) →
  run w (bank_query config request) s
  = {| result := match o with
                 | inl e => inl e
                 | inr text => inr [(lit "response", strip text)]
                 end;
       trace := [classify_event (query_text request) (inr reply);
                 fetch_event config endpoint request (inr r);
                 readable_event (query_text request) raw o];
       final := s3 |}.
Proof.
  intros Hc Hsome Hp Hok Hbody Hh.
  rewrite (bank_query_routed _ _ _ _ _ Hc Hsome).
  rewrite (run_fetch_success _ _ _ _ _ _ _ _ Hp Hok Hbody).
  unfold then_run at 1; cbn [result trace final].
  rewrite run_bind, (run_convert _ _ _ _ _ _ Hh).
  by destruct o.
Qed.

Lemma bank_query_routed_trace request s reply s1 endpoint o s2 :
  chat_stub w (lit "deepseek")
    [user_message (classify_prompt (query_text request))] s
  = (inr reply, s1) →
  endpoint_map !! classify_reply reply = Some endpoint →
  post_stub w (request_url config endpoint) (request_payload request)
    (request_headers config) s1 = (o, s2) →
  ∃ rest,
    trace (run w (bank_query config request) s)
    = classify_event (query_text request) (inr reply)
      :: fetch_event config endpoint request o :: rest.
Proof.
  intros Hc Hsome Hp.
  rewrite (bank_query_routed _ _ _ _ _ Hc Hsome).
  destruct (run_fetch_trace _ request _ _ _ Hp) as [Ht _].
  unfold logged, then_run; cbn [trace].
  destruct (result (run w (fetch_bank_data _ _ _) s1));
    cbn [trace]; rewrite Ht; eauto.
Qed.

End Pipeline.

(** ** The claims *)

Section Claims.
Context `{PyUnicode} {S : Type} (w : World S) (config : Config).

Lemma http_error_msg_Some r :
  is_Some (http_error_msg r) ↔ (400 ≤ status_code r < 600)%Z.
Proof.
  unfold http_error_msg. repeat case_decide; split;
    first [lia | by eauto | by intros [? [=]]].
Qed.

Lemma unknown_not_category : lit "unknown" ∉ categories.
Proof. rewrite <- endpoint_map_dom, endpoint_map_unknown. by intros [? [=]]. Qed.

Lemma unrouted_iff_unknown reply :
  endpoint_map !! classify_reply reply = None
  ↔ classify_reply reply = lit "unknown".
Proof.
  split.
  - intros Hnone.
    destruct (classify_reply_cases reply) as [[Hin Heq]|[_ Heq]]; [|done].
    rewrite Heq in Hnone. apply endpoint_map_dom in Hin as [? Hin]. congruence.
  - intros ->. apply endpoint_map_unknown.
Qed.

(** C1. The balance scenario: for the request with account number
    "123" and query text "what's my balance?", when the classification
    call returns "balance", the backend call for [account/balance]
    returns a response that [raise_for_status] accepts with the JSON body
    [{"balance": 100}], and the humanization call returns
    "Your balance is $100.", the pipeline returns exactly
    [{"response": "Your balance is $100."}], after these three calls. *)
Theorem balance_scenario s s1 s2 s3 r :
  chat_stub w (lit "deepseek")
    [user_message (classify_prompt (query_text balance_request))] s
  = (inr (lit "balance"), s1) →
  post_stub w (request_url config (lit "account/balance"))
    (request_payload balance_request) (request_headers config) s1
  = (inr r, s2) →
  http_error_msg r = None →
  body r = inr balance_raw →
  chat_stub w (lit "deepseek")
    [user_message (readable_prompt (query_text balance_request) balance_raw)]
    s2
  = (inr (lit "Your balance is $100."), s3) →
  run w (bank_query config balance_request) s
  = {| result := inr [(lit "response", lit "Your balance is $100.")];
       trace :=
         [classify_event (query_text balance_request) (inr (lit "balance"));
          fetch_event config (lit "account/balance") balance_request (inr r);
          readable_event (query_text balance_request) balance_raw
            (inr (lit "Your balance is $100."))];
       final := s3 |}.
Proof.
  intros Hc Hp Hok Hbody Hh.
  assert (lit "balance" ∈ categories) as Hin by (unfold categories; left).
  assert (endpoint_map !! classify_reply (lit "balance")
          = Some (lit "account/balance")) as Hroute.
  { rewrite classify_reply_label by done.
    apply endpoint_map_lookup_Some. by left. }
  assert (strip (lit "Your balance is $100.") = lit "Your balance is $100.")
    as Hstrip by by vm_compute.
  rewrite (bank_query_fetched w config _ _ _ _ _ _ _ _ _ _
             Hc Hroute Hp Hok Hbody Hh).
  by rewrite Hstrip.
Qed.

(** C2. When the classification yields a label with no routing entry
    (it is then [unknown], also for a reply such as "transfer_funds"),
    the pipeline fails with the bad-request error whose detail starts
    with "Query not recognized."; the classification call is the only
    call made: neither the backend nor the humanizer is invoked. *)
Theorem unrecognized_query_rejected request s reply s1 :
  chat_stub w (lit "deepseek")
    [user_message (classify_prompt (query_text request))] s
  = (inr reply, s1) →
  endpoint_map !! classify_reply reply = None →
  classify_reply reply = lit "unknown"
  ∧ run w (bank_query config request) s
    = {| result :=
           inl (HTTPException 400
                  (lit "Query not recognized. Try rephrasing."));
         trace := [classify_event (query_text request) (inr reply)];
         final := s1 |}
  ∧ lit "Query not recognized."
      `prefix_of` lit "Query not recognized. Try rephrasing.".
Proof.
  intros Hc Hnone. split; [by apply unrouted_iff_unknown|]. split.
  - by apply bank_query_unrecognized.
  - by exists (lit " Try rephrasing.").
Qed.

(** C3, amended. When the backend call fails at the transport level
    ([requests.post] raises a [RequestException]) or returns an error
    status (400..599, the statuses [raise_for_status] rejects), [fetch]
    raises the single bad-request error whose detail is "API Error: "
    followed by the description of the cause, and the pipeline fails
    with it after the classification and the backend call: the
    humanizer is not invoked. *)
Theorem backend_failure_is_error request s reply s1 endpoint o s2 cause :
  chat_stub w (lit "deepseek")
    [user_message (classify_prompt (query_text request))] s
  = (inr reply, s1) →
  endpoint_map !! classify_reply reply = Some endpoint →
  post_stub w (request_url config endpoint) (request_payload request)
    (request_headers config) s1 = (o, s2) →
  backend_failure o = Some cause →
  run w (fetch_bank_data config endpoint (request_payload request)) s1
  = {| result := inl (HTTPException 400 (lit "API Error: " ++ cause));
       trace := [fetch_event config endpoint request o];
       final := s2 |}
  ∧ run w (bank_query config request) s
    = {| result := inl (HTTPException 400 (lit "API Error: " ++ cause));
         trace := [classify_event (query_text request) (inr reply);
                   fetch_event config endpoint request o];
         final := s2 |}.
Proof.
  intros Hc Hsome Hp Hfail. split.
  - by apply run_fetch_failure.
  - exact (bank_query_backend_failure w config _ _ _ _ _ _ _ _
             Hc Hsome Hp Hfail).
Qed.

(** C4. For every reply of the text-generation service, [classify]
    returns a category; it is the operational category [label] exactly
    when the reply, trimmed and lowercased, equals [label], and it is
    [unknown] for every other reply. *)
Theorem classify_exact_match query_text s reply s1 :
  chat_stub w (lit "deepseek") [user_message (classify_prompt query_text)] s
  = (inr reply, s1) →
  ∃ c,
    result (run w (classify_query_with_deepseek query_text) s) = inr c
    ∧ (∀ label, label ∈ categories →
         c = label ↔ str_lower (strip reply) = label)
    ∧ (str_lower (strip reply) ∉ categories → c = lit "unknown").
Proof.
  intros Hc. exists (classify_reply reply).
  rewrite (run_classify _ _ _ _ _ Hc). split; [done|].
  fold (normalize reply).
  destruct (classify_reply_cases reply) as [[Hin ->]|[Hout ->]].
  - split; [done|]. by intros Hout.
  - split; [|done]. intros label Hlabel. split.
    + intros <-. by destruct unknown_not_category.
    + intros Heq. destruct Hout. by rewrite Heq.
Qed.

(** C5, amended. A reply whose trimmed, lowercased form is none of the
    four labels makes the pipeline fail with [UnrecognizedQuery] after
    the classification call.  A label in any ASCII case, padded with
    white space, is normalised to the label: it has a route, and the
    pipeline goes on to the backend call for that endpoint. *)
Theorem normalized_label_decides request s reply s1 :
  chat_stub w (lit "deepseek")
    [user_message (classify_prompt (query_text request))] s
  = (inr reply, s1) →
  (str_lower (strip reply) ∉ categories →
   run w (bank_query config request) s
   = {| result := inl UnrecognizedQuery;
        trace := [classify_event (query_text request) (inr reply)];
        final := s1 |})
  ∧ (∀ l v r label,
       reply = l ++ v ++ r → spaces l → spaces r →
       label ∈ categories → case_variant v label →
       ∃ endpoint rest,
         endpoint_map !! label = Some endpoint
         ∧ trace (run w (bank_query config request) s)
           = classify_event (query_text request) (inr reply)
             :: fetch_event config endpoint request
                  (post_stub w (request_url config endpoint)
                     (request_payload request) (request_headers config)
                     s1).1
             :: rest).
Proof.
  intros Hc. split.
  - intros Hout. apply bank_query_unrecognized; [done|].
    apply unrouted_iff_unknown.
    destruct (classify_reply_cases reply) as [[Hin _]|[_ Heq]]; done.
  - intros l v r label -> Hl Hr Hlabel Hv.
    destruct (proj2 (endpoint_map_dom label) Hlabel) as [endpoint Hroute].
    pose proof (classify_reply_padded l v r label Hlabel Hl Hr Hv) as Hcr.
    assert (endpoint_map !! classify_reply (l ++ v ++ r) = Some endpoint)
      as Hroute' by by rewrite Hcr.
    exists endpoint.
    destruct (post_stub w (request_url config endpoint)
                (request_payload request) (request_headers config) s1)
      as [o s2] eqn:Hp.
    destruct (bank_query_routed_trace w config _ _ _ _ _ _ _ Hc Hroute' Hp)
      as [rest Ht].
    exists rest. split; [done|exact Ht].
Qed.

(** C6. The routing table maps the four operational categories, and
    nothing else, to their endpoints; no two categories share an
    endpoint; and whenever the classification yields a category with a
    route, the backend call that follows targets that endpoint. *)
Theorem routing_is_one_to_one :
  (endpoint_map !! lit "balance" = Some (lit "account/balance")
   ∧ endpoint_map !! lit "mini_statement" = Some (lit "account/mini-statement")
   ∧ endpoint_map !! lit "last_transaction" = Some (lit "account/transactions")
   ∧ endpoint_map !! lit "loan_balance" = Some (lit "account/loan-balance"))
  ∧ (∀ c, is_Some (endpoint_map !! c) ↔ c ∈ categories)
  ∧ (∀ c1 c2 e,
       endpoint_map !! c1 = Some e → endpoint_map !! c2 = Some e → c1 = c2)
  ∧ (∀ request s reply s1 endpoint o s2,
       chat_stub w (lit "deepseek")
         [user_message (classify_prompt (query_text request))] s
       = (inr reply, s1) →
       endpoint_map !! classify_reply reply = Some endpoint →
       post_stub w (request_url config endpoint) (request_payload request)
         (request_headers config) s1 = (o, s2) →
       trace (run w (bank_query config request) s) !! 1%nat
       = Some (PostEvent
                 (getenv_str (BANK_API_URL config) ++ lit "/" ++ endpoint)
                 (request_payload request) (request_headers config) o)).
Proof.
  split; [|split; [|split]].
  - repeat split; apply endpoint_map_lookup_Some; tauto.
  - apply endpoint_map_dom.
  - intros c1 c2 e H1%endpoint_map_lookup_Some H2%endpoint_map_lookup_Some.
    destruct H1 as [[-> ->]|[[-> ->]|[[-> ->]|[-> ->]]]];
      destruct H2 as [[-> He]|[[-> He]|[[-> He]|[-> He]]]];
      first [done | by vm_compute in He].
  - intros request s reply s1 endpoint o s2 Hc Hroute Hp.
    destruct (bank_query_routed_trace w config _ _ _ _ _ _ _ Hc Hroute Hp)
      as [rest ->].
    done.
Qed.

(** C8. For every query text and raw result, [humanize] makes one call
    to the text-generation service, with the humanization prompt, and
    returns the reply with the white space at its two ends removed and
    nothing else changed, whatever the reply is. *)
Theorem humanize_returns_trimmed_reply query_text raw s reply s1 :
  chat_stub w (lit "deepseek")
    [user_message (readable_prompt query_text raw)] s = (inr reply, s1) →
  run w (convert_json_to_readable_format query_text raw) s
  = {| result := inr (strip reply);
       trace := [ChatEvent (lit "deepseek")
                   [user_message (readable_prompt query_text raw)]
                   (inr reply)];
       final := s1 |}
  ∧ ∃ l r, reply = l ++ strip reply ++ r ∧ spaces l ∧ spaces r
           ∧ starts_clean (strip reply) ∧ ends_clean (strip reply).
Proof.
  intros Hc. split.
  - by rewrite (run_convert _ _ _ _ _ _ Hc).
  - apply strip_split.
Qed.


(** C10. Two requests with the same query text and different account
    numbers are classified alike: the classification runs coincide, and
    so do the first calls of the two pipelines.  The account number
    first shows in the second call, the backend fetch, which carries it
    in its payload; a pipeline that stops before that call has the same
    outcome for both requests. *)
Theorem classification_ignores_account request1 request2 s :
  query_text request1 = query_text request2 →
  run w (classify_query_with_deepseek (query_text request1)) s
  = run w (classify_query_with_deepseek (query_text request2)) s
  ∧ head (trace (run w (bank_query config request1) s))
    = head (trace (run w (bank_query config request2) s))
  ∧ (∀ ev, trace (run w (bank_query config request1) s) !! 1%nat = Some ev →
       ∃ endpoint o,
         ev = PostEvent (request_url config endpoint)
                (JDict [(lit "account_number",
                         JStr (account_number request1))])
                (request_headers config) o)
  ∧ (trace (run w (bank_query config request1) s) !! 1%nat = None →
     run w (bank_query config request1) s
     = run w (bank_query config request2) s).
Proof.
  intros Hq. split; [by rewrite Hq|].
  destruct (chat_stub w (lit "deepseek")
              [user_message (classify_prompt (query_text request1))] s)
    as [[e|reply] s1] eqn:Hc1;
    pose proof Hc1 as Hc2; rewrite Hq in Hc2.
  - rewrite (bank_query_classification_raises w config _ _ _ _ Hc1).
    rewrite (bank_query_classification_raises w config _ _ _ _ Hc2).
    rewrite Hq. by repeat split.
  - destruct (endpoint_map !! classify_reply reply) as [endpoint|] eqn:Hroute.
    + destruct (post_stub w (request_url config endpoint)
                  (request_payload request1) (request_headers config) s1)
        as [o1 s2] eqn:Hp1.
      destruct (post_stub w (request_url config endpoint)
                  (request_payload request2) (request_headers config) s1)
        as [o2 s2'] eqn:Hp2.
      destruct (bank_query_routed_trace w config _ _ _ _ _ _ _
                  Hc1 Hroute Hp1) as [rest1 ->].
      destruct (bank_query_routed_trace w config _ _ _ _ _ _ _
                  Hc2 Hroute Hp2) as [rest2 ->].
      rewrite Hq. split; [done|]. split; [|done].
      intros ev [= <-]. by exists endpoint, o1.
    + rewrite (bank_query_unrecognized w config _ _ _ _ Hc1 Hroute).
      rewrite (bank_query_unrecognized w config _ _ _ _ Hc2 Hroute).
      rewrite Hq. by repeat split.
Qed.

End Claims.

(** C7. Two runs of the pipeline on the same request and configuration,
    against any two worlds, in which the external calls get the same
    outcomes, end alike: same reply or same error, after the same
    calls. *)
Theorem pipeline_is_deterministic `{PyUnicode} {S1 S2 : Type}
    (w1 : World S1) (w2 : World S2) config request s1 s2 :
  reply_of <$> trace (run w1 (bank_query config request) s1)
  = reply_of <$> trace (run w2 (bank_query config request) s2) →
  result (run w1 (bank_query config request) s1)
  = result (run w2 (bank_query config request) s2)
  ∧ trace (run w1 (bank_query config request) s1)
    = trace (run w2 (bank_query config request) s2).
Proof. apply run_replies. Qed.

(** ** The claims on concrete runs *)

Import Reference.

(** The balance scenario on scripted stubs. *)
Lemma balance_scenario_witness :
  run scripted (reference_query balance_request) balance_script
  = {| result := inr [(lit "response", lit "Your balance is $100.")];
       trace :=
         [classify_event (lit "what's my balance?") (inr (lit "balance"));
          fetch_event test_config (lit "account/balance") balance_request
            (inr (ok_response balance_url balance_raw));
          readable_event (H := ascii_unicode) (lit "what's my balance?")
            balance_raw (inr (lit "Your balance is $100."))];
       final := [] |}.
Proof.
  eapply (balance_scenario (H := ascii_unicode) scripted test_config
           balance_script _ _ _ (ok_response balance_url balance_raw));
    reflexivity.
Defined.

(** The reply "transfer_funds" is rejected after one call. *)
Lemma unrecognized_query_witness :
  run scripted (reference_query balance_request) transfer_script
  = {| result :=
         inl (HTTPException 400 (lit "Query not recognized. Try rephrasing."));
       trace :=
         [classify_event (lit "what's my balance?")
            (inr (lit "transfer_funds"))];
       final := [] |}.
Proof.
  eapply (unrecognized_query_rejected (H := ascii_unicode) scripted test_config
           balance_request transfer_script (lit "transfer_funds") []);
    [reflexivity | by vm_compute].
Defined.

(** A 503 answer of the backend ends the pipeline before the humanizer. *)
Lemma backend_failure_witness :
  run scripted (reference_query balance_request) unavailable_script
  = {| result :=
         inl (HTTPException 400
                (lit "API Error: 503 Server Error: Service Unavailable for url: https://api.bank.com/account/balance"));
       trace :=
         [classify_event (lit "what's my balance?") (inr (lit "balance"));
          fetch_event test_config (lit "account/balance") balance_request
            (inr unavailable)];
       final := [] |}.
Proof.
  eapply (backend_failure_is_error (H := ascii_unicode) scripted test_config
           balance_request unavailable_script (lit "balance") _
           (lit "account/balance") (inr unavailable) []);
    by vm_compute.
Defined.

(** C3 as stated fails: a 300 answer with a JSON body is a status
    outside 200..299, yet [fetch] returns the body, the humanizer is
    invoked and the pipeline succeeds. *)
Lemma multiple_choices_reaches_humanizer :
  non_success multiple_choices
  ∧ run scripted (reference_query balance_request) multiple_choices_script
    = {| result := inr [(lit "response", lit "Your balance is $100.")];
         trace :=
           [classify_event (lit "what's my balance?") (inr (lit "balance"));
            fetch_event test_config (lit "account/balance") balance_request
              (inr multiple_choices);
            readable_event (H := ascii_unicode) (lit "what's my balance?")
              balance_raw (inr (lit "Your balance is $100."))];
         final := [] |}.
Proof. split; [unfold non_success; simpl; lia|reflexivity]. Qed.

(** The reply "Mini_Statement" followed by a newline is the label
    [mini_statement]. *)
Lemma classify_exact_match_witness :
  result (run scripted
            (classify_query_with_deepseek (H := ascii_unicode)
               (lit "show my statement"))
            statement_script)
  = inr (lit "mini_statement").
Proof.
  destruct (classify_exact_match (H := ascii_unicode) scripted
              (lit "show my statement") statement_script
              (lit "Mini_Statement" ++ NL) [] eq_refl)
    as (c & -> & Hiff & _).
  f_equal. apply Hiff; [|by vm_compute].
  unfold categories. right. left.
Defined.

(** C5 as stated fails: the reply " Balance " is accepted, the backend
    is called for [account/balance] and the pipeline succeeds. *)
Lemma padded_label_is_accepted :
  run scripted (reference_query balance_request) padded_script
  = {| result := inr [(lit "response", lit "Your balance is $100.")];
       trace :=
         [classify_event (lit "what's my balance?") (inr (lit " Balance "));
          fetch_event test_config (lit "account/balance") balance_request
            (inr (ok_response balance_url balance_raw));
          readable_event (H := ascii_unicode) (lit "what's my balance?")
            balance_raw (inr (lit "Your balance is $100."))];
       final := [] |}.
Proof. reflexivity. Qed.

(** After the reply " Balance " the second call is the backend call
    for [account/balance]. *)
Lemma normalized_label_witness :
  trace (run scripted (reference_query balance_request) padded_script)
    !! 1%nat
  = Some (fetch_event test_config (lit "account/balance") balance_request
            (inr (ok_response balance_url balance_raw))).
Proof.
  unfold reference_query.
  destruct (normalized_label_decides (H := ascii_unicode) scripted test_config
              balance_request padded_script (lit " Balance ") _ eq_refl)
    as [_ Hpadded].
  destruct (Hpadded (lit " ") (lit "Balance") (lit " ") (lit "balance"))
    as (endpoint & rest & Hroute & ->);
    [done | by repeat constructor | by repeat constructor
     | by left | by split; vm_compute; repeat constructor |].
  vm_compute in Hroute. by injection Hroute as <-.
Defined.

(** A scripted mock and a mock that dispatches on the prompt give the
    same replies, hence the same run. *)
Lemma pipeline_is_deterministic_witness :
  result (run scripted (reference_query balance_request) balance_script)
  = result (run balance_stub (reference_query balance_request) ())
  ∧ trace (run scripted (reference_query balance_request) balance_script)
    = trace (run balance_stub (reference_query balance_request) ()).
Proof.
  apply (pipeline_is_deterministic (H := ascii_unicode) scripted balance_stub
           test_config balance_request balance_script ()).
  by vm_compute.
Defined.

(** The humanizer's reply loses the white space around it only. *)
Lemma humanize_witness :
  run scripted
    (convert_json_to_readable_format (H := ascii_unicode)
       (lit "what's my balance?") balance_raw)
    untrimmed_script
  = {| result := inr (lit "Your balance is $100.");
       trace :=
         [readable_event (H := ascii_unicode) (lit "what's my balance?")
            balance_raw (inr (NL ++ lit "  Your balance is $100. " ++ NL))];
       final := [] |}.
Proof.
  exact (proj1 (humanize_returns_trimmed_reply (H := ascii_unicode) scripted
                  (lit "what's my balance?") balance_raw untrimmed_script
                  (NL ++ lit "  Your balance is $100. " ++ NL) [] eq_refl)).
Defined.


(** The accounts "123" and "456" with the same query text: the same
    first call. *)
Lemma classification_ignores_account_witness :
  head (trace (run scripted (reference_query balance_request) balance_script))
  = head (trace (run scripted (reference_query other_request) balance_script)).
Proof.
  apply (classification_ignores_account (H := ascii_unicode) scripted
           test_config balance_request other_request balance_script).
  reflexivity.
Defined.

(** * Further properties of the pipeline *)

(** ** More on [str.strip] *)

Section StripMore.

Lemma lstrip_all_spaces s : spaces s → lstrip s = [].
Proof. induction 1 as [|c s Hc _ IH]; [done|]. simpl. by rewrite Hc. Qed.

Lemma strip_all_spaces s : spaces s → strip s = [].
Proof. intros Hs. unfold strip. by rewrite lstrip_all_spaces. Qed.

(** White space around a text does not change what [strip] returns. *)
Lemma strip_pad l s r : spaces l → spaces r → strip (l ++ s ++ r) = strip s.
Proof.
  intros Hl Hr.
  destruct (strip_split s) as (l' & r' & Hs & Hl' & Hr' & Hstart & Hend).
  rewrite Hs at 1.
  replace (l ++ (l' ++ strip s ++ r') ++ r)
    with ((l ++ l') ++ strip s ++ (r' ++ r)) by by rewrite <- !(assoc_L (++)).
  apply strip_padded; try done; by apply Forall_app.
Qed.

(** [strip] commutes with a change of letters that keeps white space. *)
Lemma lstrip_fmap (f : N → N) s :
  (∀ c, isspace (f c) = isspace c) → lstrip (f <$> s) = f <$> lstrip s.
Proof.
  intros Hf. induction s as [|c s IH]; [done|].
  simpl. rewrite Hf. by destruct (isspace c).
Qed.

Lemma strip_fmap (f : N → N) s :
  (∀ c, isspace (f c) = isspace c) → strip (f <$> s) = f <$> strip s.
Proof.
  intros Hf. unfold strip, rstrip.
  by rewrite lstrip_fmap, <- fmap_reverse, lstrip_fmap, fmap_reverse.
Qed.

Lemma ascii_lower_ascii s : Forall is_ascii s → Forall is_ascii (ascii_lower <$> s).
Proof.
  intros Hs. apply Forall_fmap. eapply Forall_impl; [exact Hs|].
  intros c Hc. unfold is_ascii, ascii_lower in *. simpl.
  destruct ((0x41 <=? c) && (c <=? 0x5A)) eqn:E; [|done].
  apply andb_true_iff in E as [_ ?%N.leb_le]. lia.
Qed.

End StripMore.

(** ** The whole run, from the answers of the stubs *)

Section Outcomes.
Context `{PyUnicode} {S : Type} (w : World S) (config : Config).

Lemma run_fetch endpoint payload s o s1 :
  post_stub w (request_url config endpoint) payload (request_headers config) s
  = (o, s1) →
  run w (fetch_bank_data config endpoint payload) s
  = {| result := fetch_result o;
       trace := [PostEvent (request_url config endpoint) payload
                   (request_headers config) o];
       final := s1 |}.
Proof.
  intros Hp. unfold fetch_bank_data.
  rewrite run_try_except, run_bind, (run_requests_post _ _ _ _ _ _ _ Hp).
  destruct o as [[]|r]; try done.
  unfold then_run; cbn [result trace final].
  unfold mbind, prog_bind, raise_for_status, fetch_result.
  destruct (http_error_msg r); [done|]. simpl. unfold response_json.
  by destruct (body r) as [[]|].
Qed.

(** The run of [bank_query] once the classification has a route. *)
Lemma bank_query_outcome request s reply s1 endpoint o2 s2 :
  chat_stub w (lit "deepseek")
    [user_message (classify_prompt (query_text request))] s
  = (inr reply, s1) →
  endpoint_map !! classify_reply reply = Some endpoint →
  post_stub w (request_url config endpoint) (request_payload request)
    (request_headers config) s1 = (o2, s2) →
  run w (bank_query config request) s
  = match fetch_result o2 with
    | inl e =>
        {| result := inl e;
           trace := [classify_event (query_text request) (inr reply);
                     fetch_event config endpoint request o2];
           final := s2 |}
    | inr raw =>
        let '(o3, s3) :=
          chat_stub w (lit "deepseek")
            [user_message (readable_prompt (query_text request) raw)] s2 in
        {| result := match o3 with
                     | inl e => inl e
                     | inr text => inr [(lit "response", strip text)]
                     end;
           trace := [classify_event (query_text request) (inr reply);
                     fetch_event config endpoint request o2;
                     readable_event (query_text request) raw o3];
           final := s3 |}
    end.
Proof.
  intros Hc Hroute Hp.
  rewrite (bank_query_routed _ _ _ _ _ _ _ Hc Hroute).
  rewrite (run_fetch _ _ _ _ _ Hp).
  destruct (fetch_result o2) as [e|raw]; [done|].
  unfold then_run at 1; cbn [result trace final].
  destruct (chat_stub w (lit "deepseek")
              [user_message (readable_prompt (query_text request) raw)] s2)
    as [o3 s3] eqn:Hh.
  rewrite run_bind, (run_convert _ _ _ _ _ _ Hh).
  by destruct o3.
Qed.

End Outcomes.

(** ** Failures and edge cases, stage by stage *)

Section Extras.
Context `{PyUnicode} {S : Type} (w : World S) (config : Config).

Lemma fetch_result_inr o raw :
  fetch_result o = inr raw
  ↔ ∃ r, o = inr r ∧ http_error_msg r = None ∧ body r = inr raw.
Proof.
  unfold fetch_result. split.
  - destruct o as [[]|r]; try done.
    destruct (http_error_msg r) eqn:Hok; [done|].
    destruct (body r) as [[]|j] eqn:Hb; try done.
    intros [= <-]. by exists r.
  - intros (r & -> & Hok & Hb). by rewrite Hok, Hb.
Qed.

Lemma http_error_msg_None r :
  http_error_msg r = None ↔ ¬ (400 ≤ status_code r < 600)%Z.
Proof.
  rewrite <- http_error_msg_Some, eq_None_not_Some. done.
Qed.

(** X1. Whatever the stubs answer, [bank_query] makes one, two or three
    calls and no more, in a fixed order: the classification chat, then
    at most one backend call for a routed label, then the humanization
    chat. *)
Theorem bank_query_call_order request s :
  let t := trace (run w (bank_query config request) s) in
  (∃ o1, t = [classify_event (query_text request) o1])
  ∨ (∃ reply endpoint o2,
       endpoint_map !! classify_reply reply = Some endpoint
       ∧ (t = [classify_event (query_text request) (inr reply);
               fetch_event config endpoint request o2]
          ∨ ∃ raw o3,
              t = [classify_event (query_text request) (inr reply);
                   fetch_event config endpoint request o2;
                   readable_event (query_text request) raw o3])).
Proof.
  cbv zeta.
  destruct (chat_stub w (lit "deepseek")
              [user_message (classify_prompt (query_text request))] s)
    as [[e|reply] s1] eqn:Hc.
  { left. rewrite (bank_query_classification_raises _ _ _ _ _ _ Hc). eauto. }
  destruct (endpoint_map !! classify_reply reply) as [endpoint|] eqn:Hroute.
  2:{ left. rewrite (bank_query_unrecognized _ _ _ _ _ _ Hc Hroute). eauto. }
  right. exists reply, endpoint.
  destruct (post_stub w (request_url config endpoint) (request_payload request)
              (request_headers config) s1) as [o2 s2] eqn:Hp.
  exists o2. split; [done|].
  rewrite (bank_query_outcome _ _ _ _ _ _ _ _ _ Hc Hroute Hp).
  destruct (fetch_result o2) as [e|raw]; [by left|].
  right. exists raw.
  destruct (chat_stub w (lit "deepseek") _ s2) as [o3 s3]. by exists o3.
Qed.

(** X2. When the classification call raises, [classify] and
    [bank_query] raise that same exception after this one call: there
    is no fallback to [unknown], and no backend call. *)
Theorem classification_failure_propagates request s e s1 :
  chat_stub w (lit "deepseek")
    [user_message (classify_prompt (query_text request))] s = (inl e, s1) →
  run w (classify_query_with_deepseek (query_text request)) s
  = {| result := inl e;
       trace := [classify_event (query_text request) (inl e)];
       final := s1 |}
  ∧ run w (bank_query config request) s
    = {| result := inl e;
         trace := [classify_event (query_text request) (inl e)];
         final := s1 |}.
Proof.
  intros Hc. split.
  - by rewrite (run_classify _ _ _ _ _ Hc).
  - by apply bank_query_classification_raises.
Qed.

(** X3. When the humanization call raises after a successful fetch,
    [bank_query] raises that exception: the raw backend result is not
    returned in its place. *)
Theorem humanizer_failure_propagates request s reply s1 endpoint r s2 raw e s3 :
  chat_stub w (lit "deepseek")
    [user_message (classify_prompt (query_text request))] s
  = (inr reply, s1) →
  endpoint_map !! classify_reply reply = Some endpoint →
  post_stub w (request_url config endpoint) (request_payload request)
    (request_headers config) s1 = (inr r, s2) →
  ¬ (400 ≤ status_code r < 600)%Z →
  body r = inr raw →
  chat_stub w (lit "deepseek")
    [user_message (readable_prompt (query_text request) raw)] s2
  = (inl e, s3) →
  run w (bank_query config request) s
  = {| result := inl e;
       trace := [classify_event (query_text request) (inr reply);
                 fetch_event config endpoint request (inr r);
                 readable_event (query_text request) raw (inl e)];
       final := s3 |}.
Proof.
  intros Hc Hroute Hp Hok%http_error_msg_None Hbody Hh.
  by rewrite (bank_query_fetched _ _ _ _ _ _ _ _ _ _ _ _
                Hc Hroute Hp Hok Hbody Hh).
Qed.

(** X4. An exception of [requests.post] that is no [RequestException]
    is not caught by [fetch_bank_data]: it leaves [fetch] and the
    pipeline as it is, not as a bad-request error, and the humanizer is
    not called. *)
Theorem foreign_exception_not_wrapped request s reply s1 endpoint e s2 :
  chat_stub w (lit "deepseek")
    [user_message (classify_prompt (query_text request))] s
  = (inr reply, s1) →
  endpoint_map !! classify_reply reply = Some endpoint →
  post_stub w (request_url config endpoint) (request_payload request)
    (request_headers config) s1 = (inl e, s2) →
  (∀ msg, e ≠ RequestException msg) →
  run w (fetch_bank_data config endpoint (request_payload request)) s1
  = {| result := inl e;
       trace := [fetch_event config endpoint request (inl e)];
       final := s2 |}
  ∧ run w (bank_query config request) s
    = {| result := inl e;
         trace := [classify_event (query_text request) (inr reply);
                   fetch_event config endpoint request (inl e)];
         final := s2 |}.
Proof.
  intros Hc Hroute Hp Hforeign.
  assert (fetch_result (inl e) = inl e) as Hres.
  { destruct e; try done. by destruct (Hforeign msg). }
  split.
  - by rewrite (run_fetch _ _ _ _ _ _ _ Hp), Hres.
  - by rewrite (bank_query_outcome _ _ _ _ _ _ _ _ _ Hc Hroute Hp), Hres.
Qed.

(** X5. When the backend answers with a status that [raise_for_status]
    accepts and [response.json()] raises, [fetch] fails: with the
    bad-request error "API Error: ..." when the exception is a
    [RequestException], with the exception itself otherwise.  The
    pipeline stops there, before the humanizer. *)
Theorem undecodable_body_is_error request s reply s1 endpoint r s2 e :
  chat_stub w (lit "deepseek")
    [user_message (classify_prompt (query_text request))] s
  = (inr reply, s1) →
  endpoint_map !! classify_reply reply = Some endpoint →
  post_stub w (request_url config endpoint) (request_payload request)
    (request_headers config) s1 = (inr r, s2) →
  ¬ (400 ≤ status_code r < 600)%Z →
  body r = inl e →
  run w (bank_query config request) s
  = {| result :=
         inl match e with
             | RequestException msg =>
                 HTTPException 400 (lit "API Error: " ++ msg)
             | _ => e
             end;
       trace := [classify_event (query_text request) (inr reply);
                 fetch_event config endpoint request (inr r)];
       final := s2 |}.
Proof.
  intros Hc Hroute Hp Hok%http_error_msg_None Hbody.
  rewrite (bank_query_outcome _ _ _ _ _ _ _ _ _ Hc Hroute Hp).
  unfold fetch_result. rewrite Hok, Hbody. by destruct e.
Qed.

(** X6. Whenever [bank_query] returns a value, all three calls were
    made, the backend answered with a status outside 400..599 and a
    JSON body, and the value is the one-entry dict [{"response": text}]
    where [text] is the humanizer's reply trimmed: it neither starts
    nor ends with white space. *)
Theorem success_postcondition request s v :
  result (run w (bank_query config request) s) = inr v →
  ∃ reply endpoint r raw text,
    endpoint_map !! classify_reply reply = Some endpoint
    ∧ ¬ (400 ≤ status_code r < 600)%Z
    ∧ body r = inr raw
    ∧ trace (run w (bank_query config request) s)
      = [classify_event (query_text request) (inr reply);
         fetch_event config endpoint request (inr r);
         readable_event (query_text request) raw (inr text)]
    ∧ v = [(lit "response", strip text)]
    ∧ starts_clean (strip text) ∧ ends_clean (strip text).
Proof.
  destruct (chat_stub w (lit "deepseek")
              [user_message (classify_prompt (query_text request))] s)
    as [[e|reply] s1] eqn:Hc.
  { by rewrite (bank_query_classification_raises _ _ _ _ _ _ Hc). }
  destruct (endpoint_map !! classify_reply reply) as [endpoint|] eqn:Hroute.
  2:{ by rewrite (bank_query_unrecognized _ _ _ _ _ _ Hc Hroute). }
  destruct (post_stub w (request_url config endpoint) (request_payload request)
              (request_headers config) s1) as [o2 s2] eqn:Hp.
  rewrite (bank_query_outcome _ _ _ _ _ _ _ _ _ Hc Hroute Hp).
  destruct (fetch_result o2) as [e|raw] eqn:Hres; [done|].
  apply fetch_result_inr in Hres as (r & -> & Hok%http_error_msg_None & Hbody).
  destruct (chat_stub w (lit "deepseek") _ s2) as [[e|text] s3]; [done|].
  cbn [result trace]. intros [= <-].
  exists reply, endpoint, r, raw, text.
  destruct (strip_split text) as (_ & _ & _ & _ & _ & Hstart & Hend).
  done.
Qed.

End Extras.

(** ** Blank, padded and capitalised replies *)

Section Replies.
Context `{PyUnicode} {S : Type} (w : World S) (config : Config).

Lemma empty_not_category : [] ∉ categories.
Proof.
  unfold categories. intros Hin.
  repeat (apply elem_of_cons in Hin as [Heq|Hin]; [by vm_compute in Heq|]).
  by apply elem_of_nil in Hin.
Qed.

Lemma classify_reply_blank reply :
  spaces reply → classify_reply reply = lit "unknown".
Proof.
  intros Hs.
  destruct (classify_reply_cases reply) as [[Hin _]|[_ Heq]]; [|done].
  unfold normalize in Hin.
  rewrite (strip_all_spaces _ Hs), (str_lower_ascii [] (Forall_nil_2 _)) in Hin.
  by destruct empty_not_category.
Qed.

(** X7. A reply of the classifier that is empty or white space only is
    [unknown]: the pipeline fails with the "Query not recognized" error
    after this one call. *)
Theorem blank_classifier_reply request s reply s1 :
  chat_stub w (lit "deepseek")
    [user_message (classify_prompt (query_text request))] s
  = (inr reply, s1) →
  spaces reply →
  run w (bank_query config request) s
  = {| result :=
         inl (HTTPException 400 (lit "Query not recognized. Try rephrasing."));
       trace := [classify_event (query_text request) (inr reply)];
       final := s1 |}.
Proof.
  intros Hc Hs. apply bank_query_unrecognized; [done|].
  rewrite (classify_reply_blank _ Hs). apply endpoint_map_unknown.
Qed.

(** X8. A reply of the humanizer that is empty or white space only is
    not rejected: the pipeline succeeds with the empty response text. *)
Theorem blank_humanizer_reply request s reply s1 endpoint r s2 raw text s3 :
  chat_stub w (lit "deepseek")
    [user_message (classify_prompt (query_text request))] s
  = (inr reply, s1) →
  endpoint_map !! classify_reply reply = Some endpoint →
  post_stub w (request_url config endpoint) (request_payload request)
    (request_headers config) s1 = (inr r, s2) →
  ¬ (400 ≤ status_code r < 600)%Z →
  body r = inr raw →
  chat_stub w (lit "deepseek")
    [user_message (readable_prompt (query_text request) raw)] s2
  = (inr text, s3) →
  spaces text →
  result (run w (bank_query config request) s) = inr [(lit "response", [])].
Proof.
  intros Hc Hroute Hp Hok%http_error_msg_None Hbody Hh Hs.
  rewrite (bank_query_fetched _ _ _ _ _ _ _ _ _ _ _ _
             Hc Hroute Hp Hok Hbody Hh).
  cbn [result]. by rewrite (strip_all_spaces _ Hs).
Qed.

(** X9. White space around a reply of the text-generation service is
    ignored by both stages: [classify] returns the category of the bare
    reply and [humanize] the bare reply trimmed. *)
Theorem padding_is_ignored l r query_text raw s reply s1 :
  spaces l → spaces r →
  (chat_stub w (lit "deepseek") [user_message (classify_prompt query_text)] s
   = (inr (l ++ reply ++ r), s1) →
   result (run w (classify_query_with_deepseek query_text) s)
   = inr (classify_reply reply))
  ∧ (chat_stub w (lit "deepseek")
       [user_message (readable_prompt query_text raw)] s
     = (inr (l ++ reply ++ r), s1) →
     result (run w (convert_json_to_readable_format query_text raw) s)
     = inr (strip reply)).
Proof.
  intros Hl Hr. split; intros Hc.
  - rewrite (run_classify _ _ _ _ _ Hc). cbn [result].
    unfold classify_reply, normalize. by rewrite (strip_pad _ _ _ Hl Hr).
  - rewrite (run_convert _ _ _ _ _ _ Hc). cbn [result].
    by rewrite (strip_pad _ _ _ Hl Hr).
Qed.

(** X10. The case of the ASCII letters of a reply does not matter to
    the classification: two ASCII replies that differ in case only are
    classified alike. *)
Theorem case_is_ignored query_text s s' a b s1 s1' :
  Forall is_ascii a → Forall is_ascii b →
  ascii_lower <$> a = ascii_lower <$> b →
  chat_stub w (lit "deepseek") [user_message (classify_prompt query_text)] s
  = (inr a, s1) →
  chat_stub w (lit "deepseek") [user_message (classify_prompt query_text)] s'
  = (inr b, s1') →
  result (run w (classify_query_with_deepseek query_text) s)
  = result (run w (classify_query_with_deepseek query_text) s').
Proof.
  intros Ha Hb Heq Hca Hcb.
  rewrite (run_classify _ _ _ _ _ Hca), (run_classify _ _ _ _ _ Hcb).
  cbn [result]. rewrite !classify_reply_ascii by done. cbv zeta.
  rewrite <- !(strip_fmap ascii_lower) by apply isspace_ascii_lower.
  by rewrite Heq.
Qed.


(** X12. For every endpoint and payload, when the backend answers with
    a status outside 400..599 and a JSON body, [fetch_bank_data] returns
    that body as it is, after one POST to "<BANK_API_URL>/<endpoint>"
    that carries the payload, the bearer token and the JSON content
    type. *)
Theorem fetch_returns_body_unmodified endpoint payload s r s1 raw :
  post_stub w (getenv_str (BANK_API_URL config) ++ lit "/" ++ endpoint)
    payload
    [(lit "Authorization", lit "Bearer " ++ getenv_str (BANK_API_KEY config));
     (lit "Content-Type", lit "application/json")] s = (inr r, s1) →
  ¬ (400 ≤ status_code r < 600)%Z →
  body r = inr raw →
  run w (fetch_bank_data config endpoint payload) s
  = {| result := inr raw;
       trace :=
         [PostEvent (getenv_str (BANK_API_URL config) ++ lit "/" ++ endpoint)
            payload
            [(lit "Authorization",
              lit "Bearer " ++ getenv_str (BANK_API_KEY config));
             (lit "Content-Type", lit "application/json")] (inr r)];
       final := s1 |}.
Proof.
  intros Hp Hok%http_error_msg_None Hbody.
  rewrite (run_fetch w config endpoint payload s (inr r) s1 Hp).
  unfold fetch_result. by rewrite Hok, Hbody.
Qed.

End Replies.

(** ** What each service gets to see *)

Section Flows.
Context `{PyUnicode} {S1 S2 : Type} (w1 : World S1) (w2 : World S2).


(** X14. The query text does not reach the banking backend: for two
    requests from the same account whose replies from the classifier
    are classified alike, the backend calls have the same address,
    payload (the account number alone) and headers, whatever the two
    query texts are. *)
Theorem backend_never_sees_query_text
    config request1 request2 s1 s2 reply1 reply2 sa sa' endpoint :
  account_number request1 = account_number request2 →
  chat_stub w1 (lit "deepseek")
    [user_message (classify_prompt (query_text request1))] s1
  = (inr reply1, sa) →
  chat_stub w2 (lit "deepseek")
    [user_message (classify_prompt (query_text request2))] s2
  = (inr reply2, sa') →
  classify_reply reply1 = classify_reply reply2 →
  endpoint_map !! classify_reply reply1 = Some endpoint →
  call_of <$> trace (run w1 (bank_query config request1) s1) !! 1%nat
  = Some (PostCall (request_url config endpoint)
            (JDict [(lit "account_number", JStr (account_number request1))])
            (request_headers config))
  ∧ call_of <$> trace (run w2 (bank_query config request2) s2) !! 1%nat
    = call_of <$> trace (run w1 (bank_query config request1) s1) !! 1%nat.
Proof.
  intros Hacc Hc1 Hc2 Hsame Hroute1.
  pose proof Hroute1 as Hroute2. rewrite Hsame in Hroute2.
  destruct (post_stub w1 (request_url config endpoint)
              (request_payload request1) (request_headers config) sa)
    as [o2 sb] eqn:Hp1.
  destruct (post_stub w2 (request_url config endpoint)
              (request_payload request2) (request_headers config) sa')
    as [o2' sb'] eqn:Hp2.
  destruct (bank_query_routed_trace _ _ _ _ _ _ _ _ _ Hc1 Hroute1 Hp1)
    as [rest1 ->].
  destruct (bank_query_routed_trace _ _ _ _ _ _ _ _ _ Hc2 Hroute2 Hp2)
    as [rest2 ->].
  cbn. unfold request_payload. by rewrite Hacc.
Qed.

End Flows.

(** ** The further properties on concrete runs *)

(** The service is unreachable: the pipeline raises its exception. *)
Lemma classification_failure_witness :
  run scripted (reference_query balance_request) offline_script
  = {| result := inl (OtherException (lit "connection refused"));
       trace :=
         [classify_event (lit "what's my balance?")
            (inl (OtherException (lit "connection refused")))];
       final := [] |}.
Proof.
  eapply (classification_failure_propagates (H := ascii_unicode) scripted
            test_config balance_request offline_script).
  reflexivity.
Defined.

(** The service fails at the third call: no reply is returned. *)
Lemma humanizer_failure_witness :
  result (run scripted (reference_query balance_request) late_failure_script)
  = inl (OtherException (lit "connection refused")).
Proof.
  unfold reference_query.
  erewrite (humanizer_failure_propagates (H := ascii_unicode) scripted
              test_config balance_request late_failure_script (lit "balance")
              _ (lit "account/balance") (ok_response balance_url balance_raw)
              _ balance_raw (OtherException (lit "connection refused")) []);
    [reflexivity | reflexivity | by vm_compute | reflexivity
     | simpl; lia | reflexivity | reflexivity].
Defined.

(** An exception that is no [RequestException] passes through. *)
Lemma foreign_exception_witness :
  run scripted (reference_query balance_request) foreign_script
  = {| result := inl (OtherException (lit "interrupted"));
       trace :=
         [classify_event (lit "what's my balance?") (inr (lit "balance"));
          fetch_event test_config (lit "account/balance") balance_request
            (inl (OtherException (lit "interrupted")))];
       final := [] |}.
Proof.
  eapply (foreign_exception_not_wrapped (H := ascii_unicode) scripted
            test_config balance_request foreign_script (lit "balance") _
            (lit "account/balance") (OtherException (lit "interrupted")) []);
    [reflexivity | by vm_compute | reflexivity | done].
Defined.

(** A 200 answer that is no JSON is a bad-request error. *)
Lemma undecodable_body_witness :
  result (run scripted (reference_query balance_request) html_script)
  = inl (HTTPException 400
           (lit "API Error: Expecting value: line 1 column 1 (char 0)")).
Proof.
  unfold reference_query.
  erewrite (undecodable_body_is_error (H := ascii_unicode) scripted
              test_config balance_request html_script (lit "balance") _
              (lit "account/balance") html_response []
              (RequestException
                 (lit "Expecting value: line 1 column 1 (char 0)")));
    [reflexivity | reflexivity | by vm_compute | reflexivity
     | simpl; lia | reflexivity].
Defined.

(** The balance scenario ends with three calls and a trimmed text. *)
Lemma success_postcondition_witness :
  length (trace (run scripted (reference_query balance_request) balance_script))
  = 3%nat.
Proof.
  destruct (success_postcondition (H := ascii_unicode) scripted test_config
              balance_request balance_script
              [(lit "response", lit "Your balance is $100.")] eq_refl)
    as (reply & endpoint & r & raw & text & _ & _ & _ & Ht & _).
  unfold reference_query. by rewrite Ht.
Defined.

(** A blank reply of the classifier is rejected. *)
Lemma blank_classifier_witness :
  run scripted (reference_query balance_request) blank_script
  = {| result :=
         inl (HTTPException 400 (lit "Query not recognized. Try rephrasing."));
       trace :=
         [classify_event (lit "what's my balance?") (inr (lit "  " ++ NL))];
       final := [] |}.
Proof.
  eapply (blank_classifier_reply (H := ascii_unicode) scripted test_config
            balance_request blank_script (lit "  " ++ NL) []);
    [reflexivity | by repeat constructor].
Defined.

(** A blank reply of the humanizer gives an empty response. *)
Lemma blank_humanizer_witness :
  result (run scripted (reference_query balance_request) blank_answer_script)
  = inr [(lit "response", [])].
Proof.
  eapply (blank_humanizer_reply (H := ascii_unicode) scripted test_config
            balance_request blank_answer_script (lit "balance") _
            (lit "account/balance") (ok_response balance_url balance_raw)
            _ balance_raw (lit " " ++ NL) []);
    [reflexivity | by vm_compute | reflexivity | simpl; lia
     | reflexivity | reflexivity | by repeat constructor].
Defined.

(** "Mini_Statement" with a newline is classified as "Mini_Statement". *)
Lemma padding_witness :
  result (run scripted
            (classify_query_with_deepseek (H := ascii_unicode)
               (lit "show my statement"))
            statement_script)
  = inr (classify_reply (H := ascii_unicode) (lit "Mini_Statement")).
Proof.
  eapply (proj1 (padding_is_ignored (H := ascii_unicode) scripted
                   [] NL (lit "show my statement") balance_raw
                   statement_script (lit "Mini_Statement") []
                   (Forall_nil_2 _) _)).
  reflexivity.
  Unshelve. by repeat constructor.
Defined.

(** "BALANCE" and "balance" are classified alike. *)
Lemma case_witness :
  result (run scripted
            (classify_query_with_deepseek (H := ascii_unicode)
               (lit "what's my balance?"))
            shouted_script)
  = result (run scripted
              (classify_query_with_deepseek (H := ascii_unicode)
                 (lit "what's my balance?"))
              balance_script).
Proof.
  eapply (case_is_ignored (H := ascii_unicode) scripted
            (lit "what's my balance?") shouted_script balance_script
            (lit "BALANCE") (lit "balance"));
    [by vm_compute; repeat constructor | by vm_compute; repeat constructor
     | by vm_compute | reflexivity | reflexivity].
Defined.


(** The backend's body comes back as it is. *)
Lemma fetch_witness :
  result (run scripted
            (fetch_bank_data test_config (lit "account/balance")
               (request_payload balance_request))
            fetch_script)
  = inr balance_raw.
Proof.
  rewrite (fetch_returns_body_unmodified scripted test_config
             (lit "account/balance") (request_payload balance_request)
             fetch_script (ok_response balance_url balance_raw) []
             balance_raw eq_refl);
    [done | simpl; lia | done].
Defined.


(** Two wordings of the same question: the same backend call. *)
Lemma backend_flow_witness :
  call_of <$> trace (run scripted (reference_query reworded_request)
                       balance_script) !! 1%nat
  = call_of <$> trace (run scripted (reference_query balance_request)
                         balance_script) !! 1%nat.
Proof.
  eapply (backend_never_sees_query_text (H := ascii_unicode)
            scripted scripted test_config balance_request reworded_request
            balance_script balance_script (lit "balance") (lit "balance")
            _ _ (lit "account/balance"));
    [reflexivity | reflexivity | reflexivity | reflexivity | by vm_compute].
Defined.
